(** * pyNakadi: a shallow embedding of [pyNakadi/client.py]

    The client wraps the REST interface of an event broker.  The embedding
    follows the Python source statement by statement:

    - Python [bytes] are lists of [byte]; Python [str] values are Rocq
      strings holding the UTF-8 encoding of the text, so that
      [bytes.decode('utf-8')] is a validity check that may fail;
    - exceptions are values of the type [exn], and a method that may raise
      returns a sum [exn + A];
    - a request goes to a [server], a function from requests to responses,
      and every method that talks to the broker records the requests it
      sent;
    - dictionaries of headers are finite maps. *)

From Stdlib Require Import ZArith List Bool Lia.
From Stdlib.Strings Require Import Ascii String Byte.
From stdpp Require Import base option list strings gmap pretty.
Import ListNotations.

Local Open Scope Z_scope.
Set Warnings "-register-all".

(** ** Text and bytes *)

Abbreviation bytes := (list byte).
Abbreviation str := string.

(** [b'..'] literals of printable ASCII text. *)
Definition b_ (s : string) : bytes := list_byte_of_string s.

Definition in_range (lo n hi : N) : bool := ((lo <=? n) && (n <=? hi))%N.

(** A continuation byte of a UTF-8 sequence, [0x80..0xBF]. *)
Definition utf8_cont (b : byte) : bool := in_range 128 (Byte.to_N b) 191.

(** The well-formed byte sequences of UTF-8 (Unicode, table 3-7), which is
    what the strict decoder behind [bytes.decode('utf-8')] accepts: no
    overlong form, no surrogate, nothing above U+10FFFF. *)
Fixpoint utf8_valid (bs : bytes) : bool :=
  match bs with
  | [] => true
  | b0 :: t0 =>
    let n0 := Byte.to_N b0 in
    if (n0 <=? 127)%N then utf8_valid t0 else
    match t0 with
    | [] => false
    | b1 :: t1 =>
      let n1 := Byte.to_N b1 in
      if in_range 194 n0 223 then utf8_cont b1 && utf8_valid t1 else
      match t1 with
      | [] => false
      | b2 :: t2 =>
        if in_range 224 n0 239 then
          (if (n0 =? 224)%N then in_range 160 n1 191
           else if (n0 =? 237)%N then in_range 128 n1 159
           else utf8_cont b1)
          && utf8_cont b2 && utf8_valid t2
        else
        match t2 with
        | [] => false
        | b3 :: t3 =>
          if in_range 240 n0 244 then
            (if (n0 =? 240)%N then in_range 144 n1 191
             else if (n0 =? 244)%N then in_range 128 n1 143
             else utf8_cont b1)
            && utf8_cont b2 && utf8_cont b3 && utf8_valid t3
          else false
        end
      end
    end
  end.

(** ** Exceptions *)

(** Arguments of an exception constructor: the source passes status codes
    (integers) and messages (text). *)
Inductive pyval :=
| PInt (n : Z)
| PStr (s : str).

Inductive exn :=
| NakadiException (code msg : pyval)
| TypeError
| KeyError (key : str)
| NotImplementedError
| AttributeError
| UnicodeDecodeError
| JSONDecodeError
| StopIteration.

(** [content.decode('utf-8')] *)
Definition decode_utf8 (bs : bytes) : exn + str :=
  if utf8_valid bs then inr (string_of_list_byte bs) else inl UnicodeDecodeError.

(** ** Lines of a byte string *)

Definition LF : byte := "010"%byte.
Definition CR : byte := "013"%byte.

Definition is_LF (b : byte) : bool := Byte.eqb b LF.
Definition is_CR (b : byte) : bool := Byte.eqb b CR.
Definition is_linebreak (b : byte) : bool := is_LF b || is_CR b.

(** [bytes.splitlines()]: the lines of [s] without their terminators; a
    line ends at LF, CR or CR LF, and the text after the last terminator is
    a line only when it is not empty. *)
Fixpoint splitlines (s : bytes) : list bytes :=
  match s with
  | [] => []
  | b :: s' =>
    if is_LF b then [] :: splitlines s'
    else if is_CR b then
      match s' with
      | c :: s'' => if is_LF c then [] :: splitlines s'' else [] :: splitlines s'
      | [] => [[]]
      end
    else
      match splitlines s' with
      | [] => [[b]]
      | l :: ls => (b :: l) :: ls
      end
  end.

(** ** HTTP responses *)

(** [str.lower()] on the ASCII letters of a header name. *)
Definition lower_ascii (c : ascii) : ascii :=
  let n := N_of_ascii c in
  if in_range 65 n 90 then ascii_of_N (n + 32) else c.

Fixpoint lower (s : str) : str :=
  match s with
  | EmptyString => EmptyString
  | String c s' => String (lower_ascii c) (lower s')
  end.

(** [requests.structures.CaseInsensitiveDict]: the store maps the lowered
    key to the pair of the key as it was set and the value. *)
Abbreviation CaseInsensitiveDict := (gmap string (str * str)).

Definition cid_setitem (key value : str) (d : CaseInsensitiveDict)
  : CaseInsensitiveDict :=
  <[lower key := (key, value)]> d.

(** [d[key]]: the lookup of the lowered key; a missing key raises
    [KeyError] with the lowered key. *)
Definition cid_getitem (d : CaseInsensitiveDict) (key : str) : exn + str :=
  match d !! lower key with
  | Some kv => inr (snd kv)
  | None => inl (KeyError (lower key))
  end.

(** *** The raw stream

    [response.raw] is urllib3's [HTTPResponse].  [close()] and the property
    [closed] read and write two parts of its state: the file object [_fp]
    the body is read from, which may be [None], and the connection, which
    may be [None] too.  requests builds the raw stream with [auto_close]
    left at its default [True]; the branches of [close()] and [closed] for
    [auto_close = False] are left out. *)

(** The file object under a raw stream, by what [closed] can ask it: the
    method [isclosed()] (the response of [http.client]), the attribute
    [closed] (an [io] object), or neither of them. *)
Inductive file_object :=
| WithIsClosed (is_closed : bool)
| WithClosed (is_closed : bool)
| Plain.

(** [fp.close()] on a file object: afterwards it reports closed. *)
Definition file_close (f : file_object) : file_object :=
  match f with
  | WithIsClosed _ => WithIsClosed true
  | WithClosed _ => WithClosed true
  | Plain => Plain
  end.

(** [http.client.HTTPConnection]: whether its socket is open. *)
Record HTTPConnection := { sock_open : bool }.

(** [connection.close()] *)
Definition connection_close (c : HTTPConnection) : HTTPConnection :=
  {| sock_open := false |}.

Record HTTPResponse := {
  _fp : option file_object;
  _connection : option HTTPConnection
}.

(** The property [closed] of urllib3's [HTTPResponse]:
    [if self._fp is None: return True
     elif hasattr(self._fp, 'isclosed'): return self._fp.isclosed()
     elif hasattr(self._fp, 'closed'): return self._fp.closed
     else: return True]. *)
Definition raw_closed (r : HTTPResponse) : bool :=
  match _fp r with
  | None => true
  | Some (WithIsClosed c) => c
  | Some (WithClosed c) => c
  | Some Plain => true
  end.

(** [self._fp.close()]: on [None] the attribute [close] is missing. *)
Definition fp_close (fp : option file_object) : exn + option file_object :=
  match fp with
  | None => inl AttributeError
  | Some f => inr (Some (file_close f))
  end.

(** [raw.close()]:
    [if not self.closed: self._fp.close()
     if self._connection: self._connection.close()]. *)
Definition raw_close (r : HTTPResponse) : exn + HTTPResponse :=
  match (if negb (raw_closed r) then fp_close (_fp r) else inr (_fp r)) with
  | inl e => inl e
  | inr fp =>
    inr {| _fp := fp;
           _connection :=
             match _connection r with
             | Some c => Some (connection_close c)
             | None => None
             end |}
  end.

(** [requests.Response]: [content] is the whole body the broker sends on
    the connection (a stream that ends). *)
Record Response := {
  status_code : Z;
  headers : CaseInsensitiveDict;
  content : bytes;
  raw : HTTPResponse
}.

(** ** The line iterator of a response *)

(** The generator [Response.iter_lines(chunk_size=1)] of requests, between
    two [next] calls: the bytes not read yet, the incomplete line carried
    over from the chunks read so far, the lines of the current chunk still
    to be yielded, and whether the generator has returned. *)
Record LinesIter := {
  unread : bytes;
  pending : option bytes;
  queue : list bytes;
  finished : bool
}.

Definition iter_lines (body : bytes) : LinesIter :=
  {| unread := body; pending := None; queue := []; finished := false |}.

(** The body of the generator's loop for one chunk:
    [if lines and lines[-1] and chunk and lines[-1][-1] == chunk[-1]:
       pending = lines.pop() else: pending = None]. *)
Definition carry_over (chunk : bytes) (lines : list bytes)
  : list bytes * option bytes :=
  match last lines with
  | Some l =>
    match last l, last chunk with
    | Some x, Some y =>
      if Byte.eqb x y then (removelast lines, Some l) else (lines, None)
    | _, _ => (lines, None)
    end
  | None => (lines, None)
  end.

(** Runs the generator from the top of its loop until the next [yield] or
    its return: chunks of one byte are read; after the last one the pending
    line, if any, is yielded. *)
Fixpoint iter_lines_resume (rest : bytes) (pend : option bytes)
  : option bytes * LinesIter :=
  match rest with
  | [] =>
    (pend, {| unread := []; pending := None; queue := []; finished := true |})
  | b :: rest' =>
    let chunk := match pend with Some p => p ++ [b] | None => [b] end in
    let '(lines, pend') := carry_over chunk (splitlines chunk) in
    match lines with
    | [] => iter_lines_resume rest' pend'
    | l :: q =>
      (Some l,
       {| unread := rest'; pending := pend'; queue := q; finished := false |})
    end
  end.

(** [it.__next__()]: [None] stands for [StopIteration]. *)
Definition iter_lines_next (it : LinesIter) : option bytes * LinesIter :=
  if finished it then (None, it) else
  match queue it with
  | l :: q =>
    (Some l,
     {| unread := unread it; pending := pending it; queue := q;
        finished := false |})
  | [] => iter_lines_resume (unread it) (pending it)
  end.

(** ** NakadiStream *)

Record NakadiStream := {
  response : Response;
  current_batch : option str;
  it : LinesIter
}.

(** [NakadiStream.__init__] *)
Definition NakadiStream_init (response : Response) : NakadiStream :=
  {| response := response;
     current_batch := None;
     it := iter_lines (content response) |}.

(** [NakadiStream.__iter__] *)
Definition NakadiStream_iter (self : NakadiStream) : NakadiStream := self.

(** [NakadiStream.__next__]: the next line of the iterator, decoded; the
    batch is stored before it is returned. *)
Definition NakadiStream_next (self : NakadiStream)
  : (exn + str) * NakadiStream :=
  let '(line, it') := iter_lines_next (it self) in
  let advanced :=
    {| response := response self; current_batch := current_batch self;
       it := it' |} in
  match line with
  | None => (inl StopIteration, advanced)
  | Some l =>
    match decode_utf8 l with
    | inl e => (inl e, advanced)
    | inr s =>
      (inr s,
       {| response := response self; current_batch := Some s; it := it' |})
    end
  end.

(** [NakadiStream.get_stream_id] *)
Definition get_stream_id (self : NakadiStream) : exn + str :=
  cid_getitem (headers (response self)) "X-Nakadi-StreamId".

(** [NakadiStream.close]: what [raw.close()] raises, the call raises. *)
Definition close (self : NakadiStream) : exn + NakadiStream :=
  match raw_close (raw (response self)) with
  | inl e => inl e
  | inr raw' =>
    inr {| response :=
             {| status_code := status_code (response self);
                headers := headers (response self);
                content := content (response self);
                raw := raw' |};
           current_batch := current_batch self;
           it := it self |}
  end.

(** [NakadiStream.closed] *)
Definition closed (self : NakadiStream) : bool :=
  raw_closed (raw (response self)).

(** [n] consecutive calls of [__next__]: what each call returned or raised,
    and the session afterwards. *)
Fixpoint next_batches (n : nat) (self : NakadiStream)
  : list (exn + str) * NakadiStream :=
  match n with
  | O => ([], self)
  | S n' =>
    let '(r, self') := NakadiStream_next self in
    let '(rs, self'') := next_batches n' self' in
    (r :: rs, self'')
  end.

(** ** Bodies made of lines *)

(** No byte of [l] ends a line. *)
Definition no_linebreak (l : bytes) : bool :=
  forallb (fun b => negb (is_linebreak b)) l.

(** The body whose lines are [lines], each one followed by a newline. *)
Definition newline_terminated (lines : list bytes) : bytes :=
  concat (map (fun l => l ++ [LF]) lines).

(** The pending line of the generator when the bytes [acc] of a line have
    been read: an empty line is never kept pending. *)
Definition pending_of (acc : bytes) : option bytes :=
  match acc with [] => None | _ => Some acc end.


(** ** JSON values, requests and the broker *)

(** The values the client passes to and gets from the [json] module:
    payloads, cursors and decoded bodies. *)
Inductive json :=
| JNull
| JBool (b : bool)
| JInt (n : Z)
| JStr (s : str)
| JList (items : list json)
| JDict (fields : list (str * json)).

Inductive method := GET | POST | PUT | DELETE | PATCH.

(** What [requests.get], [requests.post] and the like are called with:
    the page, the [headers] dictionary, the [json] payload if there is one,
    and the [stream] flag. *)
Record Request := {
  req_method : method;
  req_url : str;
  req_headers : gmap string str;
  req_json : option json;
  req_stream : bool
}.

(** The broker answers every request with a response. *)
Definition server := Request -> Response.

(** What a method call did: the requests it sent, in order, and what it
    returned or raised. *)
Record outcome (A : Type) := {
  sent : list Request;
  result : exn + A
}.
Arguments sent {A} _.
Arguments result {A} _.

(** Computations of the client: they may send requests and may raise. *)
Definition M (A : Type) : Type := server -> outcome A.

Definition ret {A} (a : A) : M A :=
  fun _ => {| sent := []; result := inr a |}.

Definition raise {A} (e : exn) : M A :=
  fun _ => {| sent := []; result := inl e |}.

(** A pure step that returns or raises. *)
Definition lift {A} (r : exn + A) : M A :=
  fun _ => {| sent := []; result := r |}.

Definition bind {A B} (m : M A) (f : A -> M B) : M B :=
  fun srv =>
    let o := m srv in
    match result o with
    | inl e => {| sent := sent o; result := inl e |}
    | inr a =>
      let o' := f a srv in
      {| sent := sent o ++ sent o'; result := result o' |}
    end.

Notation "'let!' x ':=' m 'in' k" := (bind m (fun x => k))
  (at level 10, x name, m at level 200, k at level 200, only parsing).

(** [requests.request(method, url, headers=.., json=.., stream=..)] *)
Definition requests_request (m : method) (url : str)
    (headers : gmap string str) (payload : option json) (stream : bool)
  : M Response :=
  fun srv =>
    let req := {| req_method := m; req_url := url; req_headers := headers;
                  req_json := payload; req_stream := stream |} in
    {| sent := [req]; result := inr (srv req) |}.

(** ** Pieces of the client's methods *)

(** [x in [..]] on status codes. *)
Definition status_in (code : Z) (codes : list Z) : bool :=
  existsb (Z.eqb code) codes.

(** [s[1:]] *)
Definition str_tail (s : str) : str :=
  match s with
  | EmptyString => EmptyString
  | String _ s' => s'
  end.

(** [s != ''] *)
Definition nonempty (s : str) : bool := negb (String.eqb s "").

(** ["Message from server:{} {}".format(status_code, content_str)] *)
Definition server_message (code : Z) (content_str : str) : str :=
  "Message from server:" +:+ pretty code +:+ " " +:+ content_str.

(** A call of [NakadiException] with positional arguments [args] and
    keyword arguments [kwargs]: the arguments are bound
    to the parameters [code] and [msg] of [NakadiException.__init__]; a
    call that does not give both exactly once raises [TypeError]. *)
Definition NakadiException_new (args : list pyval)
    (kwargs : list (str * pyval)) : exn + exn :=
  match args, kwargs with
  | [code; msg], [] => inr (NakadiException code msg)
  | [code], [(k, msg)] =>
    if String.eqb k "msg" then inr (NakadiException code msg)
    else inl TypeError
  | [], [(k1, v1); (k2, v2)] =>
    if String.eqb k1 "code" && String.eqb k2 "msg"
    then inr (NakadiException v1 v2)
    else if String.eqb k1 "msg" && String.eqb k2 "code"
    then inr (NakadiException v2 v1)
    else inl TypeError
  | _, _ => inl TypeError
  end.

(** [raise NakadiException(code=.., msg=..)] *)
Definition raise_NakadiException {A} (code : Z) (msg : str) : M A :=
  let! e :=
    lift (NakadiException_new [] [("code", PInt code); ("msg", PStr msg)]) in
  raise e.

(** ** NakadiClient *)

Record NakadiClient := {
  token : str;
  nakadi_url : str
}.

(** [NakadiClient.__init__] *)
Definition NakadiClient_init (token nakadi_url : str) : NakadiClient :=
  {| token := token; nakadi_url := nakadi_url |}.

Definition set_token (self : NakadiClient) (token : str) : NakadiClient :=
  {| token := token; nakadi_url := nakadi_url self |}.

Definition authorization_header (self : NakadiClient)
    (headers : option (gmap string str)) : gmap string str :=
  let headers := match headers with Some h => h | None => ∅ end in
  <["Authorization" := "Bearer " +:+ token self]> headers.

(** [assert_it(cls, condition, exception)] *)
Definition assert_it (condition : bool) (exception : exn) : M unit :=
  if negb condition then raise exception else ret tt.

Definition json_content_header (headers : option (gmap string str))
  : gmap string str :=
  let headers := match headers with Some h => h | None => ∅ end in
  <["Content-type" := "application/json"]> headers.

(** ** The methods of NakadiClient

    The module [json] of Python is a parameter: [json_loads] decodes a
    text, [None] standing for [JSONDecodeError], and [json_dumps] encodes a
    value. *)

Section Client.

Variable json_loads : str -> option json.
Variable json_dumps : json -> str.

(** [json.loads(s)] as a step of a method. *)
Definition loads (s : str) : M json :=
  match json_loads s with
  | Some j => ret j
  | None => raise JSONDecodeError
  end.

(** GET /event-types *)
Definition get_event_types (self : NakadiClient) : M json :=
  let headers := authorization_header self None in
  let headers := json_content_header (Some headers) in
  let page := nakadi_url self +:+ "/event-types" in
  let! response := requests_request GET page headers None false in
  let! response_content_str := lift (decode_utf8 (content response)) in
  if negb (status_in (status_code response) [200]) then
    raise_NakadiException (status_code response)
      ("Error during get_event_types. "
       +:+ server_message (status_code response) response_content_str)
  else
  let! result_map := loads response_content_str in
  ret result_map.

(** POST /event-types *)
Definition create_event_type (self : NakadiClient)
    (event_type_data_map : json) : M bool :=
  let headers := authorization_header self None in
  let headers := json_content_header (Some headers) in
  let page := nakadi_url self +:+ "/event-types" in
  let! response :=
    requests_request POST page headers (Some event_type_data_map) false in
  let! response_content_str := lift (decode_utf8 (content response)) in
  if negb (status_in (status_code response) [200]) then
    raise_NakadiException (status_code response)
      ("Error during create_event_type. "
       +:+ server_message (status_code response) response_content_str)
  else
  ret true.

(** GET /event-types/{name} *)
Definition get_event_type (self : NakadiClient) (event_type_name : str)
  : M json :=
  let headers := authorization_header self None in
  let page := nakadi_url self +:+ "/event-types/" +:+ event_type_name in
  let! response := requests_request GET page headers None false in
  let! response_content_str := lift (decode_utf8 (content response)) in
  if negb (status_in (status_code response) [200]) then
    raise_NakadiException (status_code response)
      ("Error during get_event_type. "
       +:+ server_message (status_code response) response_content_str)
  else
  let! result_map := loads response_content_str in
  ret result_map.

(** PUT /event-types/{name} *)
Definition update_event_type (self : NakadiClient) (event_type_name : str)
    (event_type_data_map : json) : M json :=
  let headers := authorization_header self None in
  let headers := json_content_header (Some headers) in
  let page := nakadi_url self +:+ "/event-types/" +:+ event_type_name in
  let! response :=
    requests_request PUT page headers (Some event_type_data_map) false in
  let! response_content_str := lift (decode_utf8 (content response)) in
  if negb (status_in (status_code response) [200]) then
    raise_NakadiException (status_code response)
      ("Error during update_event_type. "
       +:+ server_message (status_code response) response_content_str)
  else
  let! result_map := loads response_content_str in
  ret result_map.

(** DELETE /event-types/{name} *)
Definition delete_event_type (self : NakadiClient) (event_type_name : str)
  : M bool :=
  let headers := authorization_header self None in
  let page := nakadi_url self +:+ "/event-types/" +:+ event_type_name in
  let! response := requests_request DELETE page headers None false in
  let! response_content_str := lift (decode_utf8 (content response)) in
  if negb (status_in (status_code response) [200]) then
    raise_NakadiException (status_code response)
      ("Error during delete_event_type. "
       +:+ server_message (status_code response) response_content_str)
  else
  ret true.

(** POST /event-types/{name}/cursor-distances *)
Definition get_event_type_cursor_distances (self : NakadiClient)
    (event_type_name : str) (query_map : json) : M json :=
  let headers := authorization_header self None in
  let headers := json_content_header (Some headers) in
  let page := nakadi_url self +:+ "/event-types/" +:+ event_type_name
              +:+ "/cursor-distances" in
  let! response := requests_request POST page headers (Some query_map) false in
  let! response_content_str := lift (decode_utf8 (content response)) in
  if negb (status_in (status_code response) [200]) then
    raise_NakadiException (status_code response)
      ("Error during get_event_type_cursor_distances. "
       +:+ server_message (status_code response) response_content_str)
  else
  let! result_map := loads response_content_str in
  ret result_map.

(** POST /event-types/{name}/cursor-lag *)
Definition get_event_type_cursor_lag (self : NakadiClient)
    (event_type_name : str) (cursors_map : json) : M json :=
  let headers := authorization_header self None in
  let headers := json_content_header (Some headers) in
  let page := nakadi_url self +:+ "/event-types/" +:+ event_type_name
              +:+ "/cursor-lag" in
  let! response :=
    requests_request POST page headers (Some cursors_map) false in
  let! response_content_str := lift (decode_utf8 (content response)) in
  if negb (status_in (status_code response) [200]) then
    raise_NakadiException (status_code response)
      ("Error during get_event_type_cursor_lag. "
       +:+ server_message (status_code response) response_content_str)
  else
  let! result_map := loads response_content_str in
  ret result_map.

(** POST /event-types/{name}/events *)
Definition post_events (self : NakadiClient) (event_type_name : str)
    (events : json) : M bool :=
  let headers := authorization_header self None in
  let headers := json_content_header (Some headers) in
  let page := nakadi_url self +:+ "/event-types/" +:+ event_type_name
              +:+ "/events" in
  let! response := requests_request POST page headers (Some events) false in
  let! response_content_str := lift (decode_utf8 (content response)) in
  if negb (status_in (status_code response) [200]) then
    raise_NakadiException (status_code response)
      ("Error during post_events. "
       +:+ server_message (status_code response) response_content_str)
  else
  ret true.

(** GET /event-types/{name}/events

    A parameter the caller leaves out is [None] and takes the default of
    the signature; a parameter given as Python's [None] is [Some None]. *)
Definition get_event_type_events_stream (self : NakadiClient)
    (event_name : str)
    (batch_limit stream_limit batch_flush_timeout stream_timeout
     stream_keep_alive_limit : option (option Z))
    (cursors : option (option json)) : M NakadiStream :=
  let batch_limit := default (Some 1) batch_limit in
  let stream_limit := default (Some 0) stream_limit in
  let batch_flush_timeout := default (Some 30) batch_flush_timeout in
  let stream_timeout := default (Some 0) stream_timeout in
  let stream_keep_alive_limit := default (Some 0) stream_keep_alive_limit in
  let cursors := default None cursors in
  let headers := authorization_header self None in
  let headers :=
    match cursors with
    | Some c => <["X-nakadi-cursors" := json_dumps c]> headers
    | None => headers
    end in
  let page := nakadi_url self +:+ "/event-types/" +:+ event_name
              +:+ "/events" in
  let query_str := "" in
  let query_str :=
    match batch_limit with
    | Some v => "&batch_limit=" +:+ pretty v
    | None => query_str
    end in
  let query_str :=
    match stream_limit with
    | Some v => query_str +:+ "&stream_limit=" +:+ pretty v
    | None => query_str
    end in
  let query_str :=
    match batch_flush_timeout with
    | Some v => query_str +:+ "&batch_flush_timeout=" +:+ pretty v
    | None => query_str
    end in
  let query_str :=
    match stream_timeout with
    | Some v => query_str +:+ "&stream_timeout=" +:+ pretty v
    | None => query_str
    end in
  let query_str :=
    match stream_keep_alive_limit with
    | Some v => query_str +:+ "&stream_keep_alive_limit=" +:+ pretty v
    | None => query_str
    end in
  let page :=
    if nonempty query_str then page +:+ "?" +:+ str_tail query_str
    else page in
  let! response := requests_request GET page headers None true in
  if negb (status_in (status_code response) [200]) then
    let! response_content_str := lift (decode_utf8 (content response)) in
    raise_NakadiException (status_code response)
      ("Error during get_subscription_events_stream. "
       +:+ server_message (status_code response) response_content_str)
  else
  ret (NakadiStream_init response).

(** GET /event-types/{name}/partitions *)
Definition get_event_type_partitions (self : NakadiClient)
    (event_type_name : str) : M json :=
  let headers := authorization_header self None in
  let page := nakadi_url self +:+ "/event-types/" +:+ event_type_name
              +:+ "/partitions" in
  let! response := requests_request GET page headers None false in
  let! response_content_str := lift (decode_utf8 (content response)) in
  if negb (status_in (status_code response) [200]) then
    raise_NakadiException (status_code response)
      ("Error during get_event_type_partitions. "
       +:+ server_message (status_code response) response_content_str)
  else
  let! result_map := loads response_content_str in
  ret result_map.

(** GET /event-types/{name}/partitions/{partition} *)
Definition get_event_type_partition (self : NakadiClient)
    (event_type_name partition_id : str) : M json :=
  let headers := authorization_header self None in
  let page := nakadi_url self +:+ "/event-types/" +:+ event_type_name
              +:+ "/partitions/" +:+ partition_id in
  let! response := requests_request GET page headers None false in
  let! response_content_str := lift (decode_utf8 (content response)) in
  if negb (status_in (status_code response) [200]) then
    raise_NakadiException (status_code response)
      ("Error during get_event_type_partition. "
       +:+ server_message (status_code response) response_content_str)
  else
  let! result_map := loads response_content_str in
  ret result_map.

(** GET /subscriptions

    Python evaluates the arguments of a call before the call: each
    [NakadiException('...')] is built before [assert_it] looks at its
    condition. *)
Definition get_subscriptions (self : NakadiClient)
    (owning_application : option str) (event_type : option (list str))
    (limit offset : option Z) : M json :=
  let limit := default 20 limit in
  let offset := default 0 offset in
  let! e := lift (NakadiException_new [PStr "limit must be >=1"] []) in
  let! _ := assert_it (1 <=? limit) e in
  let! e := lift (NakadiException_new [PStr "limit must be <=1000"] []) in
  let! _ := assert_it (limit <=? 1000) e in
  let! e := lift (NakadiException_new [PStr "offset must be >=0"] []) in
  let! _ := assert_it (0 <=? offset) e in
  let headers := authorization_header self None in
  let page := nakadi_url self +:+ "/subscriptions" in
  let query_str := "?limit=" +:+ pretty limit +:+ "&offset=" +:+ pretty offset in
  let query_str :=
    match owning_application with
    | Some a => query_str +:+ "&owning_application=" +:+ a
    | None => query_str
    end in
  let query_str :=
    match event_type with
    | Some items =>
      query_str
      +:+ fold_left (fun reduced item => reduced +:+ "&event_type=" +:+ item)
            items ""
    | None => query_str
    end in
  let page := page +:+ query_str in
  let! response := requests_request GET page headers None false in
  let! response_content_str := lift (decode_utf8 (content response)) in
  if negb (status_in (status_code response) [200]) then
    raise_NakadiException (status_code response)
      ("Error during get_subscriptions. "
       +:+ server_message (status_code response) response_content_str)
  else
  let! result_map := loads response_content_str in
  ret result_map.

Definition get_next_subscriptions (self : NakadiClient)
    (subscriptions_response : json) : M json :=
  raise NotImplementedError.

Definition get_prev_subscriptions (self : NakadiClient)
    (subscriptions_response : json) : M json :=
  raise NotImplementedError.

(** POST /subscriptions *)
Definition create_subscription (self : NakadiClient)
    (subscription_data_map : json) : M json :=
  let headers := authorization_header self None in
  let headers := json_content_header (Some headers) in
  let page := nakadi_url self +:+ "/subscriptions" in
  let! response :=
    requests_request POST page headers (Some subscription_data_map) false in
  let! response_content_str := lift (decode_utf8 (content response)) in
  if negb (status_in (status_code response) [200; 201]) then
    raise_NakadiException (status_code response)
      ("Error during create_subscription. "
       +:+ server_message (status_code response) response_content_str)
  else
  let! result_map := loads response_content_str in
  ret result_map.

(** GET /subscriptions/{subscription_id} *)
Definition get_subscription (self : NakadiClient) (subscription_id : str)
  : M json :=
  let headers := authorization_header self None in
  let page := nakadi_url self +:+ "/subscriptions/" +:+ subscription_id in
  let! response := requests_request GET page headers None false in
  let! response_content_str := lift (decode_utf8 (content response)) in
  if negb (status_in (status_code response) [200]) then
    raise_NakadiException (status_code response)
      ("Error during get_subscription. "
       +:+ server_message (status_code response) response_content_str)
  else
  let! result_map := loads response_content_str in
  ret result_map.

(** DELETE /subscriptions/{subscription_id} *)
Definition delete_subscription (self : NakadiClient) (subscription_id : str)
  : M json :=
  let headers := authorization_header self None in
  let page := nakadi_url self +:+ "/subscriptions/" +:+ subscription_id in
  let! response := requests_request DELETE page headers None false in
  let! response_content_str := lift (decode_utf8 (content response)) in
  if negb (status_in (status_code response) [204]) then
    raise_NakadiException (status_code response)
      ("Error during delete_subscription. "
       +:+ server_message (status_code response) response_content_str)
  else
  let! result_map := loads response_content_str in
  ret result_map.

(** GET /subscriptions/{subscription_id}/events

    Every tuning parameter defaults to Python's [None]. *)
Definition get_subscription_events_stream (self : NakadiClient)
    (subscription_id : str)
    (max_uncommitted_events batch_limit stream_limit batch_flush_timeout
     stream_timeout stream_keep_alive_limit : option Z) : M NakadiStream :=
  let headers := authorization_header self None in
  let page := nakadi_url self +:+ "/subscriptions/" +:+ subscription_id
              +:+ "/events" in
  let query_str := "" in
  let query_str :=
    match max_uncommitted_events with
    | Some v => query_str +:+ "&max_uncommitted_events=" +:+ pretty v
    | None => query_str
    end in
  let query_str :=
    match batch_limit with
    | Some v => "?batch_limit=" +:+ pretty v
    | None => query_str
    end in
  let query_str :=
    match stream_limit with
    | Some v => query_str +:+ "&stream_limit=" +:+ pretty v
    | None => query_str
    end in
  let query_str :=
    match batch_flush_timeout with
    | Some v => query_str +:+ "&batch_flush_timeout=" +:+ pretty v
    | None => query_str
    end in
  let query_str :=
    match stream_timeout with
    | Some v => query_str +:+ "&stream_timeout=" +:+ pretty v
    | None => query_str
    end in
  let query_str :=
    match stream_keep_alive_limit with
    | Some v => query_str +:+ "&stream_keep_alive_limit=" +:+ pretty v
    | None => query_str
    end in
  let page :=
    if nonempty query_str then page +:+ "?" +:+ str_tail query_str
    else page in
  let! response := requests_request GET page headers None true in
  if negb (status_in (status_code response) [200]) then
    let! response_content_str := lift (decode_utf8 (content response)) in
    raise_NakadiException (status_code response)
      ("Error during get_subscription_events_stream. "
       +:+ server_message (status_code response) response_content_str)
  else
  ret (NakadiStream_init response).

(** GET /subscriptions/{subscription_id}/stats *)
Definition get_subscription_stats (self : NakadiClient)
    (subscription_id : str) : M json :=
  let headers := authorization_header self None in
  let page := nakadi_url self +:+ "/subscriptions/" +:+ subscription_id
              +:+ "/stats" in
  let! response := requests_request GET page headers None false in
  let! response_content_str := lift (decode_utf8 (content response)) in
  if negb (status_in (status_code response) [200]) then
    raise_NakadiException (status_code response)
      ("Error during get_subscription_stats. "
       +:+ server_message (status_code response) response_content_str)
  else
  let! result_map := loads response_content_str in
  ret result_map.

(** GET /subscriptions/{subscription_id}/cursors *)
Definition get_subscription_cursors (self : NakadiClient)
    (subscription_id : str) : M json :=
  let headers := authorization_header self None in
  let page := nakadi_url self +:+ "/subscriptions/" +:+ subscription_id
              +:+ "/cursors" in
  let! response := requests_request GET page headers None false in
  let! response_content_str := lift (decode_utf8 (content response)) in
  if negb (status_in (status_code response) [200]) then
    raise_NakadiException (status_code response)
      ("Error during get_subscription_stats. "
       +:+ server_message (status_code response) response_content_str)
  else
  let! result_map := loads response_content_str in
  ret result_map.

(** POST /subscriptions/{subscription_id}/cursors *)
Definition commit_subscription_cursors (self : NakadiClient)
    (subscription_id stream_id : str) (cursors : json) : M bool :=
  let headers := authorization_header self None in
  let headers := json_content_header (Some headers) in
  let headers := <["X-Nakadi-StreamId" := stream_id]> headers in
  let page := nakadi_url self +:+ "/subscriptions/" +:+ subscription_id
              +:+ "/cursors" in
  let cursors_data := JDict [("items", cursors)] in
  let! response :=
    requests_request POST page headers (Some cursors_data) false in
  let! response_content_str := lift (decode_utf8 (content response)) in
  if negb (status_in (status_code response) [204]) then
    raise_NakadiException (status_code response)
      ("Error during commit_subscription_cursors. "
       +:+ server_message (status_code response) response_content_str)
  else
  ret true.

(** PATCH /subscriptions/{subscription_id}/cursors *)
Definition reset_subscription_cursors (self : NakadiClient)
    (subscription_id : str) (cursors : json) : M bool :=
  let headers := authorization_header self None in
  let headers := json_content_header (Some headers) in
  let page := nakadi_url self +:+ "/subscriptions/" +:+ subscription_id
              +:+ "/cursors" in
  let! response := requests_request PATCH page headers (Some cursors) false in
  let! response_content_str := lift (decode_utf8 (content response)) in
  if negb (status_in (status_code response) [204]) then
    raise_NakadiException (status_code response)
      ("Error during reset_subscription_cursors. "
       +:+ server_message (status_code response) response_content_str)
  else
  ret true.

(** ** The broker operations as one family *)

(** A call of a method of the client that talks to the broker, with its
    arguments. *)
Inductive operation :=
| GetEventTypes
| CreateEventType (event_type_data_map : json)
| GetEventType (event_type_name : str)
| UpdateEventType (event_type_name : str) (event_type_data_map : json)
| DeleteEventType (event_type_name : str)
| GetEventTypeCursorDistances (event_type_name : str) (query_map : json)
| GetEventTypeCursorLag (event_type_name : str) (cursors_map : json)
| PostEvents (event_type_name : str) (events : json)
| GetEventTypeEventsStream (event_name : str)
    (batch_limit stream_limit batch_flush_timeout stream_timeout
     stream_keep_alive_limit : option (option Z))
    (cursors : option (option json))
| GetEventTypePartitions (event_type_name : str)
| GetEventTypePartition (event_type_name partition_id : str)
| GetSubscriptions (owning_application : option str)
    (event_type : option (list str)) (limit offset : option Z)
| GetNextSubscriptions (subscriptions_response : json)
| GetPrevSubscriptions (subscriptions_response : json)
| CreateSubscription (subscription_data_map : json)
| GetSubscription (subscription_id : str)
| DeleteSubscription (subscription_id : str)
| GetSubscriptionEventsStream (subscription_id : str)
    (max_uncommitted_events batch_limit stream_limit batch_flush_timeout
     stream_timeout stream_keep_alive_limit : option Z)
| GetSubscriptionStats (subscription_id : str)
| GetSubscriptionCursors (subscription_id : str)
| CommitSubscriptionCursors (subscription_id stream_id : str) (cursors : json)
| ResetSubscriptionCursors (subscription_id : str) (cursors : json).

(** What a method returns: [True], a decoded body or a stream session. *)
Inductive value :=
| VBool (b : bool)
| VJson (j : json)
| VStream (s : NakadiStream).

Definition returning {A} (wrap : A -> value) (m : M A) : M value :=
  let! a := m in ret (wrap a).

Definition run_op (self : NakadiClient) (op : operation) : M value :=
  match op with
  | GetEventTypes => returning VJson (get_event_types self)
  | CreateEventType d => returning VBool (create_event_type self d)
  | GetEventType n => returning VJson (get_event_type self n)
  | UpdateEventType n d => returning VJson (update_event_type self n d)
  | DeleteEventType n => returning VBool (delete_event_type self n)
  | GetEventTypeCursorDistances n q =>
    returning VJson (get_event_type_cursor_distances self n q)
  | GetEventTypeCursorLag n c =>
    returning VJson (get_event_type_cursor_lag self n c)
  | PostEvents n e => returning VBool (post_events self n e)
  | GetEventTypeEventsStream n bl sl bft st skal cs =>
    returning VStream (get_event_type_events_stream self n bl sl bft st skal cs)
  | GetEventTypePartitions n => returning VJson (get_event_type_partitions self n)
  | GetEventTypePartition n p =>
    returning VJson (get_event_type_partition self n p)
  | GetSubscriptions a t l o => returning VJson (get_subscriptions self a t l o)
  | GetNextSubscriptions r => returning VJson (get_next_subscriptions self r)
  | GetPrevSubscriptions r => returning VJson (get_prev_subscriptions self r)
  | CreateSubscription d => returning VJson (create_subscription self d)
  | GetSubscription i => returning VJson (get_subscription self i)
  | DeleteSubscription i => returning VJson (delete_subscription self i)
  | GetSubscriptionEventsStream i mue bl sl bft st skal =>
    returning VStream
      (get_subscription_events_stream self i mue bl sl bft st skal)
  | GetSubscriptionStats i => returning VJson (get_subscription_stats self i)
  | GetSubscriptionCursors i => returning VJson (get_subscription_cursors self i)
  | CommitSubscriptionCursors i s c =>
    returning VBool (commit_subscription_cursors self i s c)
  | ResetSubscriptionCursors i c =>
    returning VBool (reset_subscription_cursors self i c)
  end.

End Client.

(** The status codes an operation accepts, as its [not in [..]] test lists
    them; the two operations that are not implemented send no request and
    accept nothing. *)
Definition accepted (op : operation) : list Z :=
  match op with
  | CreateSubscription _ => [200; 201]
  | DeleteSubscription _
  | CommitSubscriptionCursors _ _ _
  | ResetSubscriptionCursors _ _ => [204]
  | GetNextSubscriptions _
  | GetPrevSubscriptions _ => []
  | _ => [200]
  end.

(** ** Notions the claims are stated with *)

(** [sub] occurs in [s]. *)
Definition contains (sub s : str) : Prop :=
  exists before after, s = before +:+ sub +:+ after.

(** A line of a body that ends no line before its end and is text. *)
Definition line_ok (l : bytes) : bool := no_linebreak l && utf8_valid l.

(** The text of a line of bytes that is valid UTF-8. *)
Definition text_of (l : bytes) : str := string_of_list_byte l.

(** The parameters that have a value, each as [name=value]. *)
Fixpoint present (params : list (str * option Z)) : list str :=
  match params with
  | [] => []
  | (name, Some v) :: ps => (name +:+ "=" +:+ pretty v) :: present ps
  | (_, None) :: ps => present ps
  end.

(** [q] and [qs] joined with ampersands. *)
Fixpoint join_amp (q : str) (qs : list str) : str :=
  match qs with
  | [] => q
  | x :: xs => q +:+ "&" +:+ join_amp x xs
  end.

(** A query string that carries exactly the parameters that have a value,
    in the order given; no query string when none has a value. *)
Definition query_of (params : list (str * option Z)) : str :=
  match present params with
  | [] => ""
  | q :: qs => "?" +:+ join_amp q qs
  end.

(** A freshly received response: its raw stream reads from the response
    of [http.client], which is open, over an open connection. *)
Definition mk_response (code : Z) (hs : list (str * str)) (body : bytes)
  : Response :=
  {| status_code := code;
     headers := fold_right (fun kv d => cid_setitem (fst kv) (snd kv) d) ∅ hs;
     content := body;
     raw := {| _fp := Some (WithIsClosed false);
               _connection := Some {| sock_open := true |} |} |}.

(** ** Sample inputs *)

(** A decoder of the literals of JSON, for calls whose body is one. *)
Definition loads_literal (s : str) : option json :=
  if String.eqb s "null" then Some JNull
  else if String.eqb s "true" then Some (JBool true)
  else if String.eqb s "false" then Some (JBool false)
  else None.

(** An encoder of the literals of JSON and of the empty list. *)
Definition dumps_literal (j : json) : str :=
  match j with
  | JBool true => "true"
  | JBool false => "false"
  | JList [] => "[]"
  | _ => "null"
  end.

Definition sample_client : NakadiClient :=
  NakadiClient_init "secret" "https://nakadi.example.org".

(** A broker that answers every request alike. *)
Definition answering (code : Z) (hs : list (str * str)) (body : bytes)
  : server :=
  fun _ => mk_response code hs body.

(** The request of [get_event_type] for the event type [orders]. *)
Definition sample_request : Request :=
  {| req_method := GET;
     req_url := "https://nakadi.example.org/event-types/orders";
     req_headers := authorization_header sample_client None;
     req_json := None;
     req_stream := false |}.

(** ** Notions for the further properties *)

(** The batch a session holds after calls of [__next__] that returned or
    raised [results], when it held [held] before them: the last text that
    was returned. *)
Fixpoint last_returned (held : option str) (results : list (exn + str))
  : option str :=
  match results with
  | [] => held
  | inr batch :: rest => last_returned (Some batch) rest
  | inl _ :: rest => last_returned held rest
  end.

(** * Properties of the client

    The claims of the specification, each settled on the definitions
    above, with the lemmas they rest on. *)

(** ** Lines and the line iterator *)

Lemma no_linebreak_cons b l :
  no_linebreak (b :: l) = true ->
  is_LF b = false /\ is_CR b = false /\ no_linebreak l = true.
Proof.
  unfold no_linebreak, is_linebreak. simpl. intros H.
  apply andb_prop in H as [Hb Hl].
  apply negb_true_iff, orb_false_iff in Hb. tauto.
Qed.

Lemma no_linebreak_snoc l b :
  no_linebreak l = true -> is_linebreak b = false ->
  no_linebreak (l ++ [b]) = true.
Proof.
  unfold no_linebreak. intros Hl Hb.
  rewrite forallb_app, Hl. simpl. now rewrite Hb.
Qed.

Lemma splitlines_plain l :
  no_linebreak l = true -> l <> [] -> splitlines l = [l].
Proof.
  induction l as [|b l IH]; [congruence|].
  intros H _. apply no_linebreak_cons in H as (HLF & HCR & Hl).
  simpl. rewrite HLF, HCR.
  destruct l as [|c l]; [reflexivity|].
  rewrite IH by (assumption || discriminate). reflexivity.
Qed.

Lemma splitlines_plain_LF l :
  no_linebreak l = true -> splitlines (l ++ [LF]) = [l].
Proof.
  induction l as [|b l IH]; [reflexivity|].
  intros H. apply no_linebreak_cons in H as (HLF & HCR & Hl).
  simpl. rewrite HLF, HCR, IH by assumption. reflexivity.
Qed.

Lemma byte_eqb_refl (b : byte) : Byte.eqb b b = true.
Proof. now apply Byte.byte_dec_lb. Qed.

Lemma last_no_linebreak l x :
  no_linebreak l = true -> last l = Some x -> Byte.eqb x LF = false.
Proof.
  induction l as [|b l IH]; [discriminate|].
  intros H Hx. apply no_linebreak_cons in H as (HLF & _ & Hl).
  destruct l as [|c l].
  - simpl in Hx. injection Hx as <-. exact HLF.
  - apply IH; assumption.
Qed.

Lemma carry_over_plain l :
  l <> [] -> carry_over l [l] = ([], Some l).
Proof.
  intros Hne. unfold carry_over. simpl.
  destruct (last l) as [x|] eqn:Hx.
  - now rewrite byte_eqb_refl.
  - apply last_None in Hx. contradiction.
Qed.

Lemma carry_over_LF l :
  no_linebreak l = true -> carry_over (l ++ [LF]) [l] = ([l], None).
Proof.
  intros Hl. unfold carry_over. simpl.
  destruct (last l) as [x|] eqn:Hx; [|reflexivity].
  rewrite last_snoc.
  now rewrite (last_no_linebreak l x Hl Hx).
Qed.

(** Reading one whole line: the generator, holding the bytes [acc] of a
    line, reads the rest [l] of the line and its newline, and yields the
    line; nothing is left pending. *)
Lemma iter_lines_resume_line l : forall acc rest,
  no_linebreak acc = true -> no_linebreak l = true ->
  iter_lines_resume (l ++ LF :: rest) (pending_of acc)
  = (Some (acc ++ l),
     {| unread := rest; pending := None; queue := []; finished := false |}).
Proof.
  induction l as [|b l IH]; intros acc rest Hacc Hl.
  - simpl.
    assert (Hchunk : match pending_of acc with
                     | Some p => p ++ [LF] | None => [LF] end = acc ++ [LF])
      by (destruct acc; reflexivity).
    rewrite Hchunk, splitlines_plain_LF, carry_over_LF by assumption.
    now rewrite app_nil_r.
  - apply no_linebreak_cons in Hl as (HLF & HCR & Hl).
    assert (Hb : is_linebreak b = false)
      by (unfold is_linebreak; now rewrite HLF, HCR).
    pose proof (no_linebreak_snoc acc b Hacc Hb) as Hacc'.
    assert (Hne : acc ++ [b] <> []) by (destruct acc; discriminate).
    simpl.
    assert (Hchunk : match pending_of acc with
                     | Some p => p ++ [b] | None => [b] end = acc ++ [b])
      by (destruct acc; reflexivity).
    rewrite Hchunk, splitlines_plain, carry_over_plain by assumption.
    replace (Some (acc ++ [b])) with (pending_of (acc ++ [b]))
      by (destruct acc; reflexivity).
    rewrite IH by assumption.
    now rewrite <- app_assoc.
Qed.

(** ** Reading batches from a session *)

Lemma line_ok_inv l :
  line_ok l = true -> no_linebreak l = true /\ utf8_valid l = true.
Proof. unfold line_ok. intros H. now apply andb_prop in H. Qed.

(** One call of [__next__] at the start of a line: the line is read with
    its newline, decoded, stored as the current batch and returned. *)
Lemma NakadiStream_next_line resp cb l rest :
  line_ok l = true ->
  NakadiStream_next
    {| response := resp; current_batch := cb;
       it := iter_lines (l ++ LF :: rest) |}
  = (inr (text_of l),
     {| response := resp; current_batch := Some (text_of l);
        it := iter_lines rest |}).
Proof.
  intros Hok. apply line_ok_inv in Hok as [Hnb Hutf].
  unfold NakadiStream_next, iter_lines_next. cbn [it finished queue iter_lines unread pending].
  change (@None bytes) with (pending_of []).
  rewrite iter_lines_resume_line by (assumption || reflexivity).
  cbn [app response current_batch].
  unfold decode_utf8. now rewrite Hutf.
Qed.

(** After the last line the iterator is exhausted. *)
Lemma NakadiStream_next_end resp cb :
  fst (NakadiStream_next
         {| response := resp; current_batch := cb; it := iter_lines [] |})
  = inl StopIteration.
Proof. reflexivity. Qed.

Lemma next_batches_lines lines : forall resp cb,
  Forall (fun l => line_ok l = true) lines ->
  exists cb',
    next_batches (length lines)
      {| response := resp; current_batch := cb;
         it := iter_lines (newline_terminated lines) |}
    = (map (fun l => inr (text_of l)) lines,
       {| response := resp; current_batch := cb'; it := iter_lines [] |}).
Proof.
  induction lines as [|l lines IH]; intros resp cb Hall.
  - exists cb. reflexivity.
  - inversion Hall as [|? ? Hl Hrest]; subst.
    destruct (IH resp (Some (text_of l)) Hrest) as [cb' Hcb'].
    exists cb'.
    change (newline_terminated (l :: lines))
      with ((l ++ [LF]) ++ newline_terminated lines).
    rewrite <- app_assoc. cbn [app length next_batches].
    rewrite NakadiStream_next_line by assumption.
    now rewrite Hcb'.
Qed.

(** C1, as amended: over a body of N lines, each free of line breaks (LF
    and CR), valid UTF-8 and followed by a newline, N calls of [__next__]
    return the N lines in order as text, and the call after them raises
    [StopIteration]. *)
Theorem next_batch_returns_lines (resp : Response) (lines : list bytes) :
  Forall (fun l => line_ok l = true) lines ->
  content resp = newline_terminated lines ->
  fst (next_batches (length lines) (NakadiStream_init resp))
  = map (fun l => inr (text_of l)) lines
  /\ fst (NakadiStream_next
            (snd (next_batches (length lines) (NakadiStream_init resp))))
     = inl StopIteration.
Proof.
  intros Hall Hbody. unfold NakadiStream_init. rewrite Hbody.
  destruct (next_batches_lines lines resp None Hall) as [cb' ->].
  split; [reflexivity|]. apply NakadiStream_next_end.
Qed.

(** Three lines of JSON text, each followed by a newline. *)
Lemma next_batch_returns_lines_witness :
  let lines := [b_ "[1]"; b_ "{}"; b_ "[2,3]"] in
  let resp := mk_response 200 [] (newline_terminated lines) in
  fst (next_batches 3 (NakadiStream_init resp))
  = [inr "[1]"; inr "{}"; inr "[2,3]"]
  /\ fst (NakadiStream_next (snd (next_batches 3 (NakadiStream_init resp))))
     = inl StopIteration.
Proof.
  apply (next_batch_returns_lines
           (mk_response 200 []
              (newline_terminated [b_ "[1]"; b_ "{}"; b_ "[2,3]"]))
           [b_ "[1]"; b_ "{}"; b_ "[2,3]"]).
  - repeat constructor.
  - reflexivity.
Defined.

(** C1 as stated fails on two bodies of one newline-terminated line each.
    A carriage return inside the line ends a line for the iterator: the
    first call returns the text before it and the second call returns the
    rest instead of raising [StopIteration].  A line that is not UTF-8
    makes the first call raise [UnicodeDecodeError]. *)
Lemma next_batch_lines_counterexample :
  let line1 := b_ "a" ++ [CR] ++ b_ "b" in
  let s1 := NakadiStream_init (mk_response 200 [] (newline_terminated [line1])) in
  let line2 := ["255"%byte] in
  let s2 := NakadiStream_init (mk_response 200 [] (newline_terminated [line2])) in
  no_linebreak line1 = false
  /\ fst (next_batches 1 s1) = [inr "a"]
  /\ fst (next_batches 1 s1) <> [inr (text_of line1)]
  /\ fst (NakadiStream_next (snd (next_batches 1 s1))) = inr "b"
  /\ fst (NakadiStream_next (snd (next_batches 1 s1))) <> inl StopIteration
  /\ utf8_valid line2 = false
  /\ fst (next_batches 1 s2) = [inl UnicodeDecodeError].
Proof. cbv zeta. repeat split; try reflexivity; discriminate. Qed.

(** ** Closing a session *)

(** A raw stream that does not report closed has a file object: the
    guard of [raw.close()] keeps [self._fp.close()] away from [None]. *)
Lemma open_raw_has_file_object (r : HTTPResponse) :
  raw_closed r = false -> exists f, _fp r = Some f.
Proof.
  unfold raw_closed. destruct (_fp r) as [f|]; [eauto | discriminate].
Qed.

Lemma file_close_closed (f : file_object) r :
  _fp r = Some (file_close f) -> raw_closed r = true.
Proof. unfold raw_closed. intros ->. destruct f; reflexivity. Qed.

(** [raw.close()] returns whatever the state of the raw stream is; the
    stream then reports closed, and closing it once more returns and
    changes nothing. *)
Lemma raw_close_returns (r : HTTPResponse) :
  exists r',
    raw_close r = inr r'
    /\ raw_closed r' = true
    /\ raw_close r' = inr r'.
Proof.
  unfold raw_close at 1.
  destruct (raw_closed r) eqn:Hclosed; cbn [negb].
  - eexists. split; [reflexivity|].
    assert (Hstill : raw_closed
                       {| _fp := _fp r;
                          _connection :=
                            match _connection r with
                            | Some c => Some (connection_close c)
                            | None => None
                            end |} = true) by exact Hclosed.
    split; [exact Hstill|].
    unfold raw_close. rewrite Hstill. cbn [negb _fp _connection].
    destruct (_connection r); reflexivity.
  - destruct (open_raw_has_file_object r Hclosed) as [f Hf].
    rewrite Hf. cbn [fp_close].
    eexists. split; [reflexivity|].
    assert (Hnow : raw_closed
                     {| _fp := Some (file_close f);
                        _connection :=
                          match _connection r with
                          | Some c => Some (connection_close c)
                          | None => None
                          end |} = true)
      by (eapply file_close_closed; reflexivity).
    split; [exact Hnow|].
    unfold raw_close. rewrite Hnow. cbn [negb _fp _connection].
    destruct (_connection r); reflexivity.
Qed.

(** [close()] returns a session that differs from the one it was called
    on in its raw stream alone. *)
Lemma close_returns (self : NakadiStream) :
  exists once,
    close self = inr once
    /\ headers (response once) = headers (response self)
    /\ closed once = true
    /\ close once = inr once.
Proof.
  destruct (raw_close_returns (raw (response self)))
    as (r' & Hclose & Hclosed & Hagain).
  unfold close at 1. rewrite Hclose.
  eexists. split; [reflexivity|]. split; [reflexivity|].
  split; [exact Hclosed|].
  unfold close. cbn [response raw status_code headers content current_batch it].
  now rewrite Hagain.
Qed.

(** C9: on every session [close()] returns; after it the status check
    [closed()] returns true; a second [close()] does not raise either and
    changes nothing, so [closed()] still returns true. *)
Theorem close_idempotent (self : NakadiStream) :
  exists once,
    close self = inr once
    /\ closed once = true
    /\ close once = inr once.
Proof.
  destruct (close_returns self) as (once & H1 & _ & H2 & H3).
  exists once. auto.
Qed.

(** ** The stream identifier *)

Lemma get_stream_id_missing (self : NakadiStream) :
  headers (response self) !! lower "X-Nakadi-StreamId" = None ->
  get_stream_id self = inl (KeyError "x-nakadi-streamid").
Proof.
  intros Habsent. unfold get_stream_id, cid_getitem. now rewrite Habsent.
Qed.

(** ** Text *)

Lemma append_assoc (a b c : str) : (a +:+ b) +:+ c = a +:+ b +:+ c.
Proof.
  induction a as [|x a IH]; [reflexivity|].
  change (String x ((a +:+ b) +:+ c) = String x (a +:+ b +:+ c)).
  now rewrite IH.
Qed.

Lemma append_nil_r (a : str) : a +:+ "" = a.
Proof.
  induction a as [|x a IH]; [reflexivity|].
  change (String x (a +:+ "") = String x a). now rewrite IH.
Qed.

Lemma contains_suffix (before s : str) : contains s (before +:+ s).
Proof. exists before, ""%string. now rewrite append_nil_r. Qed.

(** The message of a broker error ends with the decoded body. *)
Lemma contains_server_message (intro : str) (code : Z) (body : str) :
  contains body (intro +:+ server_message code body).
Proof.
  unfold server_message.
  rewrite <- !append_assoc. apply contains_suffix.
Qed.

(** ** Steps of the methods *)

Lemma NakadiException_new_keywords code msg :
  NakadiException_new [] [("code", code); ("msg", msg)]
  = inr (NakadiException code msg).
Proof. reflexivity. Qed.

(** A call with the message alone leaves [msg] without a value. *)
Lemma NakadiException_new_one_argument text :
  NakadiException_new [text] [] = inl TypeError.
Proof. reflexivity. Qed.

Lemma raise_NakadiException_outcome {A} code msg srv :
  @raise_NakadiException A code msg srv
  = {| sent := []; result := inl (NakadiException (PInt code) (PStr msg)) |}.
Proof. reflexivity. Qed.

Lemma decode_utf8_valid body :
  utf8_valid body = true -> decode_utf8 body = inr (text_of body).
Proof. unfold decode_utf8. now intros ->. Qed.

Lemma decode_utf8_is_not_broker_error body code msg :
  decode_utf8 body <> inl (NakadiException code msg).
Proof. unfold decode_utf8. destruct (utf8_valid body); discriminate. Qed.

(** Unfolds a method call down to its tests on the response; with
    [forget_request] the page and the headers of the request are made
    opaque first (the query string of a stream is built in many steps). *)
Ltac unfold_method :=
  cbv [run_op returning get_event_types create_event_type get_event_type
       update_event_type delete_event_type get_event_type_cursor_distances
       get_event_type_cursor_lag post_events get_event_type_events_stream
       get_event_type_partitions get_event_type_partition get_subscriptions
       get_next_subscriptions get_prev_subscriptions create_subscription
       get_subscription delete_subscription get_subscription_events_stream
       get_subscription_stats get_subscription_cursors
       commit_subscription_cursors reset_subscription_cursors accepted].

Ltac forget_request :=
  try match goal with
      | |- context [requests_request ?m ?p ?h ?j ?s] =>
        generalize p; generalize h; intros ? ?
      end.

Ltac unfold_steps :=
  cbv [bind requests_request lift ret raise loads assert_it];
  rewrite ?raise_NakadiException_outcome, ?NakadiException_new_one_argument;
  cbn [sent result app].

(** Case analysis on the tests a method makes on a response. *)
Ltac case_response :=
  repeat match goal with
         | |- context [decode_utf8 ?x] => destruct (decode_utf8 x) eqn:?
         | |- context [status_in ?a ?b] => destruct (status_in a b) eqn:?
         | |- context [match ?jl ?a with Some _ => _ | None => _ end] =>
           destruct (jl a)
         end;
  cbn [negb sent result app];
  rewrite ?raise_NakadiException_outcome;
  cbn [negb sent result app].

(** ** The pagination operations that are not implemented *)

(** C10: [get_next_subscriptions] and [get_prev_subscriptions] raise
    [NotImplementedError] on every input; they send no request and return
    nothing. *)
Theorem subscriptions_pagination_not_implemented
    (self : NakadiClient) (subscriptions_response : json) (srv : server) :
  get_next_subscriptions self subscriptions_response srv
  = {| sent := []; result := inl NotImplementedError |}
  /\ get_prev_subscriptions self subscriptions_response srv
     = {| sent := []; result := inl NotImplementedError |}.
Proof. split; reflexivity. Qed.

(** ** Listing subscriptions *)

(** C6, what the code does: every call of [get_subscriptions] ends in
    [TypeError] before a request is sent, whatever [limit] and [offset]
    are, since the exception of the first check cannot be built. *)
Theorem get_subscriptions_always_type_error
    (json_loads : str -> option json) (self : NakadiClient)
    (owning_application : option str) (event_type : option (list str))
    (limit offset : option Z) (srv : server) :
  get_subscriptions json_loads self owning_application event_type limit offset
    srv
  = {| sent := []; result := inl TypeError |}.
Proof. reflexivity. Qed.

(** ** Statuses outside the accepted set *)

(** C2, as amended: for every operation that sends its request and every
    response whose status is outside the accepted set of the operation and
    whose body is valid UTF-8, the operation raises [NakadiException] with
    the status as its code and a message that contains the decoded body;
    for every response whose status is accepted, no [NakadiException] is
    raised. *)
Theorem status_outside_accepted_raises
    (json_loads : str -> option json) (json_dumps : json -> str)
    (self : NakadiClient) (op : operation) (srv : server) (req : Request) :
  sent (run_op json_loads json_dumps self op srv) = [req] ->
  (status_in (status_code (srv req)) (accepted op) = false ->
   utf8_valid (content (srv req)) = true ->
   exists msg,
     result (run_op json_loads json_dumps self op srv)
     = inl (NakadiException (PInt (status_code (srv req))) (PStr msg))
     /\ contains (text_of (content (srv req))) msg)
  /\ (status_in (status_code (srv req)) (accepted op) = true ->
      forall code msg,
        result (run_op json_loads json_dumps self op srv)
        <> inl (NakadiException code msg)).
Proof.
  destruct op; unfold_method; forget_request; unfold_steps; case_response.
  all: try (intros; discriminate).
  all: intros Hsent; injection Hsent as <-.
  all: split; [intros Hst Hutf | intros Hst code msg].
  all: try congruence.
  all: try (rewrite (decode_utf8_valid _ Hutf) in *; congruence).
  all: try (intros [= ->]; eapply decode_utf8_is_not_broker_error; eassumption).
  all: eexists; split; [reflexivity|];
    match goal with
    | H : decode_utf8 _ = inr _ |- _ =>
      rewrite (decode_utf8_valid _ Hutf) in H; injection H as <-
    end;
    apply contains_server_message.
Qed.

(** A 404 answer to [get_event_type]: the error carries 404 and the body. *)
Lemma status_outside_accepted_raises_witness :
  exists msg,
    result (run_op loads_literal dumps_literal sample_client
              (GetEventType "orders") (answering 404 [] (b_ "not found")))
    = inl (NakadiException (PInt 404) (PStr msg))
    /\ contains "not found" msg.
Proof.
  exact (proj1 (status_outside_accepted_raises loads_literal dumps_literal
                  sample_client (GetEventType "orders")
                  (answering 404 [] (b_ "not found")) sample_request
                  eq_refl)
           eq_refl eq_refl).
Defined.

(** C2 as stated fails on a response whose body is not UTF-8: the status
    500 is outside the accepted set of [get_event_types], and the call
    raises [UnicodeDecodeError], which is no [NakadiException]. *)
Lemma status_outside_accepted_counterexample :
  let srv := answering 500 [] ["255"%byte] in
  let out := run_op loads_literal dumps_literal sample_client GetEventTypes srv in
  (exists req,
     sent out = [req]
     /\ status_in (status_code (srv req)) (accepted GetEventTypes) = false)
  /\ result out = inl UnicodeDecodeError
  /\ forall code msg, result out <> inl (NakadiException code msg).
Proof.
  cbv zeta. split; [|split].
  - eexists. split; reflexivity.
  - reflexivity.
  - intros code msg. discriminate.
Qed.

(** ** Opening an event-type stream *)

(** C3, as amended: when the broker answers the opening of an event-type
    stream with status 200 and no X-Nakadi-StreamId header, the call
    returns a session, and [get_stream_id()] on that session raises
    [KeyError] (the header name, lowered); it returns no value. *)
Theorem event_type_stream_has_no_stream_id
    (json_dumps : json -> str) (self : NakadiClient) (event_name : str)
    (batch_limit stream_limit batch_flush_timeout stream_timeout
     stream_keep_alive_limit : option (option Z))
    (cursors : option (option json)) (srv : server) :
  (forall req,
     status_code (srv req) = 200
     /\ headers (srv req) !! lower "X-Nakadi-StreamId" = None) ->
  exists session,
    result (get_event_type_events_stream json_dumps self event_name
              batch_limit stream_limit batch_flush_timeout stream_timeout
              stream_keep_alive_limit cursors srv)
    = inr session
    /\ get_stream_id session = inl (KeyError "x-nakadi-streamid").
Proof.
  intros Hsrv. unfold_method. forget_request. unfold_steps.
  match goal with
  | |- context [srv ?q] => destruct (Hsrv q) as [Hcode Hnone]; rewrite Hcode
  end.
  cbn [status_in existsb Z.eqb Pos.eqb orb negb sent result].
  eexists. split; [reflexivity|].
  now apply get_stream_id_missing.
Qed.

Lemma event_type_stream_has_no_stream_id_witness :
  exists session,
    result (get_event_type_events_stream dumps_literal sample_client "orders"
              None None None None None None (answering 200 [] []))
    = inr session
    /\ get_stream_id session = inl (KeyError "x-nakadi-streamid").
Proof.
  apply (event_type_stream_has_no_stream_id dumps_literal sample_client
           "orders" None None None None None None (answering 200 [] [])).
  intros req. split; reflexivity.
Defined.

(** C3 as stated fails: on the session of an event-type stream opened with
    a 200 response without the header, [get_stream_id()] returns nothing,
    whatever marker of absence one expects; it ends with an exception. *)
Lemma get_stream_id_counterexample :
  let out :=
    get_event_type_events_stream dumps_literal sample_client "orders"
      None None None None None None (answering 200 [] []) in
  exists session,
    result out = inr session
    /\ (forall v, get_stream_id session <> inr v)
    /\ get_stream_id session = inl (KeyError "x-nakadi-streamid").
Proof.
  cbv zeta. eexists. split; [reflexivity|].
  split; [intros v; discriminate | reflexivity].
Qed.

(** The request of a method that sends one request and nothing after the
    response has come. *)
Lemma sent_bind_request {A} m url hs payload stream (f : Response -> M A) srv :
  (forall r, sent (f r srv) = []) ->
  sent (bind (requests_request m url hs payload stream) f srv)
  = [{| req_method := m; req_url := url; req_headers := hs;
        req_json := payload; req_stream := stream |}].
Proof.
  intros Hf. unfold bind, requests_request. cbn [sent result].
  now rewrite Hf.
Qed.

(** C5, as amended: opening an event-type stream sends one request whose
    page ends with the query string of the parameters that are not
    [None], each with its value, where a parameter that is left out has
    the value 1 for batch_limit, 30 for batch_flush_timeout and 0 for
    stream_limit, stream_timeout and stream_keep_alive_limit. *)
Theorem event_type_stream_query
    (json_dumps : json -> str) (self : NakadiClient) (event_name : str)
    (batch_limit stream_limit batch_flush_timeout stream_timeout
     stream_keep_alive_limit : option (option Z))
    (cursors : option (option json)) (srv : server) :
  map req_url
    (sent (get_event_type_events_stream json_dumps self event_name
             batch_limit stream_limit batch_flush_timeout stream_timeout
             stream_keep_alive_limit cursors srv))
  = [(nakadi_url self +:+ "/event-types/" +:+ event_name +:+ "/events")
     +:+ query_of
           [("batch_limit", default (Some 1) batch_limit);
            ("stream_limit", default (Some 0) stream_limit);
            ("batch_flush_timeout", default (Some 30) batch_flush_timeout);
            ("stream_timeout", default (Some 0) stream_timeout);
            ("stream_keep_alive_limit",
             default (Some 0) stream_keep_alive_limit)]].
Proof.
  unfold get_event_type_events_stream.
  generalize (default (Some 1) batch_limit) (default (Some 0) stream_limit)
    (default (Some 30) batch_flush_timeout) (default (Some 0) stream_timeout)
    (default (Some 0) stream_keep_alive_limit).
  generalize (nakadi_url self +:+ "/event-types/" +:+ event_name +:+ "/events").
  intros page bl sl bft st skal. cbv zeta.
  rewrite sent_bind_request
    by (intros r; destruct (status_in (status_code r) [200]),
                    (decode_utf8 (content r)); reflexivity).
  cbn [map req_url]. f_equal.
  destruct bl as [bl|], sl as [sl|], bft as [bft|], st as [st|],
           skal as [skal|];
    cbn [query_of present join_amp];
    rewrite ?append_assoc, ?append_nil_r; reflexivity.
Qed.

(** C5 as stated fails on the call that leaves every parameter out: the
    request carries batch_flush_timeout=30, not batch_flush_timeout=0. *)
Lemma event_type_stream_defaults_counterexample :
  let out :=
    get_event_type_events_stream dumps_literal sample_client "orders"
      None None None None None None (answering 200 [] []) in
  map req_url (sent out)
  = [("https://nakadi.example.org/event-types/orders/events"
      +:+ "?batch_limit=1&stream_limit=0&batch_flush_timeout=30"
      +:+ "&stream_timeout=0&stream_keep_alive_limit=0")%string]
  /\ map req_url (sent out)
     <> [("https://nakadi.example.org/event-types/orders/events"
          +:+ "?batch_limit=1&stream_limit=0&batch_flush_timeout=0"
          +:+ "&stream_timeout=0&stream_keep_alive_limit=0")%string].
Proof. cbv zeta. split; [vm_compute; reflexivity | vm_compute; discriminate]. Qed.

(** ** Opening a subscription stream *)

(** C4, what the code does: when batch_limit is given, the query string is
    started again from it, so a max_uncommitted_events given with it is
    not sent: the call is the call without max_uncommitted_events. *)
Theorem subscription_stream_drops_max_uncommitted_events
    (self : NakadiClient) (subscription_id : str)
    (max_uncommitted_events batch_limit : Z)
    (stream_limit batch_flush_timeout stream_timeout
     stream_keep_alive_limit : option Z) (srv : server) :
  get_subscription_events_stream self subscription_id
    (Some max_uncommitted_events) (Some batch_limit) stream_limit
    batch_flush_timeout stream_timeout stream_keep_alive_limit srv
  = get_subscription_events_stream self subscription_id
      None (Some batch_limit) stream_limit
      batch_flush_timeout stream_timeout stream_keep_alive_limit srv
  /\ map req_url
       (sent (get_subscription_events_stream self subscription_id
                (Some 10) (Some 5) None None None None srv))
     = [(nakadi_url self +:+ "/subscriptions/" +:+ subscription_id
         +:+ "/events") +:+ "?batch_limit=5"].
Proof.
  split; [reflexivity|].
  unfold get_subscription_events_stream. cbv zeta.
  rewrite sent_bind_request
    by (intros r; destruct (status_in (status_code r) [200]),
                    (decode_utf8 (content r)); reflexivity).
  reflexivity.
Qed.

(** ** Committing cursors *)

(** C7, as amended: the commit sends one POST to the cursors page of the
    subscription, with the body [{"items": cursors}] and the stream
    identifier under X-Nakadi-StreamId; on a response whose body is valid
    UTF-8 it returns [True] exactly when the status is 204, and raises
    [NakadiException] with the status as its code for any other status. *)
Theorem commit_subscription_cursors_exchange
    (self : NakadiClient) (subscription_id stream_id : str) (cursors : json)
    (srv : server) :
  let out :=
    commit_subscription_cursors self subscription_id stream_id cursors srv in
  exists req,
    sent out = [req]
    /\ req_method req = POST
    /\ req_url req
       = nakadi_url self +:+ "/subscriptions/" +:+ subscription_id
         +:+ "/cursors"
    /\ req_json req = Some (JDict [("items", cursors)])
    /\ req_headers req !! "X-Nakadi-StreamId" = Some stream_id
    /\ (utf8_valid (content (srv req)) = true ->
        (result out = inr true <-> status_code (srv req) = 204)
        /\ (status_code (srv req) <> 204 ->
            exists msg,
              result out
              = inl (NakadiException (PInt (status_code (srv req)))
                       (PStr msg)))).
Proof.
  cbv zeta. unfold commit_subscription_cursors. cbv zeta.
  eexists. split.
  { apply sent_bind_request. intros r.
    cbv [bind lift]. cbn [sent result].
    destruct (decode_utf8 (content r)); [reflexivity|].
    destruct (status_in (status_code r) [204]); reflexivity. }
  cbn [req_method req_url req_json req_headers].
  do 3 (split; [reflexivity|]).
  split; [apply lookup_insert_eq|].
  intros Hutf. cbv [bind requests_request lift]. cbn [sent result].
  rewrite (decode_utf8_valid _ Hutf). cbn [sent result].
  unfold status_in. cbn [existsb]. rewrite orb_false_r.
  match goal with
  | |- context [Z.eqb ?c 204] => destruct (Z.eqb_spec c 204) as [Heq|Hne]
  end; cbn [negb]; rewrite ?raise_NakadiException_outcome;
    cbn [sent result].
  - split; [tauto | contradiction].
  - split; [split; [discriminate | contradiction]|].
    intros _. eexists. reflexivity.
Qed.

(** The commit of an empty list of cursors, answered with 204. *)
Lemma commit_subscription_cursors_witness :
  result (commit_subscription_cursors sample_client "sub-1" "abc123"
            (JList []) (answering 204 [] []))
  = inr true.
Proof.
  destruct (commit_subscription_cursors_exchange sample_client "sub-1"
              "abc123" (JList []) (answering 204 [] []))
    as (req & _ & _ & _ & _ & _ & Hresult).
  apply Hresult; reflexivity.
Defined.

(** C7 as stated fails on a response whose body is not UTF-8: the commit
    answered with status 409 raises [UnicodeDecodeError], not a broker
    error that carries 409. *)
Lemma commit_subscription_cursors_counterexample :
  let out :=
    commit_subscription_cursors sample_client "sub-1" "abc123" (JList [])
      (answering 409 [] ["255"%byte]) in
  result out = inl UnicodeDecodeError
  /\ forall msg, result out <> inl (NakadiException (PInt 409) msg).
Proof. cbv zeta. split; [reflexivity | intros msg; discriminate]. Qed.

(** ** Deleting a subscription *)

(** C8, what the code does: on a 204 response without a body,
    [delete_subscription] hands the empty text to [json.loads] and returns
    or raises what that does; [json.loads] of Python raises on the empty
    text. *)
Theorem delete_subscription_decodes_empty_body
    (json_loads : str -> option json) (self : NakadiClient)
    (subscription_id : str) (hs : list (str * str)) :
  result (delete_subscription json_loads self subscription_id
            (answering 204 hs []))
  = match json_loads "" with
    | Some j => inr j
    | None => inl JSONDecodeError
    end.
Proof.
  unfold delete_subscription. cbv zeta.
  cbv [bind requests_request lift loads answering mk_response].
  cbn [sent result content status_code decode_utf8 utf8_valid
       string_of_list_byte status_in existsb Z.eqb Pos.eqb orb negb].
  change (string_of_list_byte []) with ""%string.
  destruct (json_loads ""); reflexivity.
Qed.

(** * Further properties *)

(** ** The session between calls *)

Lemma iter_lines_resume_end rest : forall pend it',
  iter_lines_resume rest pend = (None, it') -> finished it' = true.
Proof.
  induction rest as [|b rest IH]; intros pend it' H.
  - simpl in H. now injection H as _ <-.
  - simpl in H.
    destruct (carry_over _ _) as [lines pend'].
    destruct lines as [|l q]; [eauto | discriminate].
Qed.

Lemma iter_lines_next_end it0 it' :
  iter_lines_next it0 = (None, it') -> finished it' = true.
Proof.
  unfold iter_lines_next.
  destruct (finished it0) eqn:Hfin.
  - now intros [= <-].
  - destruct (queue it0); [apply iter_lines_resume_end | discriminate].
Qed.

(** X1: a session is not restartable: once [__next__] has raised
    [StopIteration], every later call raises [StopIteration] too. *)
Theorem StopIteration_is_final (self : NakadiStream) (n : nat) :
  fst (NakadiStream_next self) = inl StopIteration ->
  Forall (fun r => r = inl StopIteration)
    (fst (next_batches n (snd (NakadiStream_next self)))).
Proof.
  unfold NakadiStream_next at 1 2.
  destruct (iter_lines_next (it self)) as [line it'] eqn:Hnext.
  destruct line as [l|].
  { destruct (decode_utf8 l) eqn:Hdec; [|discriminate].
    cbn [fst]. intros [= ->]. unfold decode_utf8 in Hdec.
    destruct (utf8_valid l); discriminate. }
  intros _. cbn [snd].
  apply iter_lines_next_end in Hnext.
  generalize (current_batch self) as cb. generalize (response self) as resp.
  revert it' Hnext.
  induction n as [|n IH]; intros it' Hfin resp cb; [constructor|].
  cbn [next_batches]. unfold NakadiStream_next at 1.
  unfold iter_lines_next at 1. cbn [it]. rewrite Hfin.
  cbn [response current_batch].
  specialize (IH it' Hfin resp cb).
  destruct (next_batches n _) as [rs s'] eqn:Hrs.
  cbn [fst] in *. constructor; [reflexivity | exact IH].
Qed.

(** The session over an empty body is at its end from the first call. *)
Lemma StopIteration_is_final_witness :
  Forall (fun r => r = inl StopIteration)
    (fst (next_batches 2
            (snd (NakadiStream_next
                    (NakadiStream_init (mk_response 200 [] [])))))).
Proof.
  apply (StopIteration_is_final (NakadiStream_init (mk_response 200 [] [])) 2).
  reflexivity.
Defined.

(** X2: [current_batch] is the last batch that [__next__] returned: a
    call that raises leaves it as it was. *)
Theorem current_batch_is_last_returned (n : nat) : forall self : NakadiStream,
  current_batch (snd (next_batches n self))
  = last_returned (current_batch self) (fst (next_batches n self)).
Proof.
  induction n as [|n IH]; intros self; [reflexivity|].
  cbn [next_batches].
  destruct (NakadiStream_next self) as [r self'] eqn:Hnext.
  specialize (IH self').
  destruct (next_batches n self') as [rs self''].
  cbn [fst snd] in *. rewrite IH.
  unfold NakadiStream_next in Hnext.
  destruct (iter_lines_next (it self)) as [line it'].
  destruct line as [l|]; [destruct (decode_utf8 l)|];
    injection Hnext as <- <-; reflexivity.
Qed.

(** X3: the stream identifier of a session stays the same for its life:
    [get_stream_id()] returns or raises the same after any number of calls
    of [__next__] and after [close()] as before them. *)
Theorem reading_keeps_stream_id (n : nat) : forall self : NakadiStream,
  get_stream_id (snd (next_batches n self)) = get_stream_id self
  /\ (exists closed_session,
        close self = inr closed_session
        /\ get_stream_id closed_session = get_stream_id self)
  /\ (exists closed_session,
        close (snd (next_batches n self)) = inr closed_session
        /\ get_stream_id closed_session = get_stream_id self).
Proof.
  assert (Hresp : forall n self,
             response (snd (next_batches n self)) = response self).
  { clear n. induction n as [|n IH]; intros self; [reflexivity|].
    cbn [next_batches].
    destruct (NakadiStream_next self) as [r self'] eqn:Hnext.
    specialize (IH self').
    destruct (next_batches n self') as [rs self''].
    cbn [snd] in *. rewrite IH.
    unfold NakadiStream_next in Hnext.
    destruct (iter_lines_next (it self)) as [line it'].
    destruct line as [l|]; [destruct (decode_utf8 l)|];
      injection Hnext as _ <-; reflexivity. }
  intros self. unfold get_stream_id. rewrite Hresp.
  split; [reflexivity|]. split.
  - destruct (close_returns self) as (once & Hclose & Hheaders & _).
    exists once. now rewrite Hheaders.
  - destruct (close_returns (snd (next_batches n self)))
      as (once & Hclose & Hheaders & _).
    exists once. now rewrite Hheaders, Hresp.
Qed.

(** ** The requests of the operations *)

Lemma sent_returning {A} (wrap : A -> value) (m : M A) srv :
  sent (returning wrap m srv) = sent (m srv).
Proof.
  unfold returning, bind, ret.
  destruct (result (m srv)); cbn [sent]; [reflexivity | apply app_nil_r].
Qed.

(** After the response has come a method sends nothing. *)
Ltac nothing_after_response :=
  let r := fresh "r" in
  intros r; cbv [bind lift loads ret raise];
  repeat (match goal with
          | |- context [decode_utf8 ?x] => destruct (decode_utf8 x)
          | |- context [status_in ?a ?b] => destruct (status_in a b)
          | |- context [match ?jl ?a with Some _ => _ | None => _ end] =>
            destruct (jl a)
          end; cbn [sent result negb app]);
  reflexivity.

(** Makes the query string of a stream opener opaque. *)
Ltac forget_query :=
  try match goal with
      | |- context [nonempty ?q] => generalize q; intros ?
      end.

(** The requests of an operation, as a list given in full. *)
Ltac requests_of_operation :=
  cbv [run_op]; rewrite ?sent_returning; unfold_method; forget_query;
  try (rewrite !sent_bind_request by nothing_after_response).

Lemma request_shape json_loads json_dumps self op srv :
  Forall (fun req =>
            req_headers req !! "Authorization"
            = Some ("Bearer " +:+ token self)
            /\ (exists path, req_url req = nakadi_url self +:+ path)
            /\ (req_json req <> None ->
                req_headers req !! "Content-type" = Some "application/json"))
    (sent (run_op json_loads json_dumps self op srv)).
Proof.
  destruct op; requests_of_operation; try (cbn; constructor; fail).
  all: constructor; [|constructor].
  all: cbn [req_headers req_url req_json].
  all: split; [|split].
  all: try (intros H; contradiction).
  all: try (intros _; unfold json_content_header; apply lookup_insert_eq).
  all: try (unfold json_content_header, authorization_header;
            rewrite ?lookup_insert_ne by discriminate; apply lookup_insert_eq).
  all: try (eexists; reflexivity).
  - destruct (default None cursors); unfold authorization_header;
      rewrite ?lookup_insert_ne by discriminate; apply lookup_insert_eq.
  - destruct (nonempty _); eexists; rewrite ?append_assoc; reflexivity.
  - destruct (nonempty _); eexists; rewrite ?append_assoc; reflexivity.
Qed.

(** X4: every request of every operation carries the bearer token of the
    client in its Authorization header; after [set_token] it is the new
    token. *)
Theorem every_request_is_authorized
    (json_loads : str -> option json) (json_dumps : json -> str)
    (self : NakadiClient) (new_token : str) (op : operation) (srv : server) :
  Forall (fun req =>
            req_headers req !! "Authorization"
            = Some ("Bearer " +:+ token self))
    (sent (run_op json_loads json_dumps self op srv))
  /\ Forall (fun req =>
               req_headers req !! "Authorization"
               = Some ("Bearer " +:+ new_token))
       (sent (run_op json_loads json_dumps (set_token self new_token) op srv)).
Proof.
  split.
  - eapply Forall_impl; [apply request_shape|]. cbn beta. tauto.
  - eapply Forall_impl; [apply request_shape|]. cbn beta. tauto.
Qed.

(** X5: every request of every operation goes to a page under the
    [nakadi_url] of the client. *)
Theorem every_request_goes_to_the_broker
    (json_loads : str -> option json) (json_dumps : json -> str)
    (self : NakadiClient) (op : operation) (srv : server) :
  Forall (fun req => exists path, req_url req = nakadi_url self +:+ path)
    (sent (run_op json_loads json_dumps self op srv)).
Proof.
  eapply Forall_impl; [apply request_shape|]. cbn beta. tauto.
Qed.

(** X6: every request that carries a JSON payload carries the header
    Content-type: application/json. *)
Theorem json_payload_has_content_type
    (json_loads : str -> option json) (json_dumps : json -> str)
    (self : NakadiClient) (op : operation) (srv : server) :
  Forall (fun req =>
            req_json req <> None ->
            req_headers req !! "Content-type" = Some "application/json")
    (sent (run_op json_loads json_dumps self op srv)).
Proof.
  eapply Forall_impl; [apply request_shape|]. cbn beta. tauto.
Qed.

(** X7: an operation sends at most one request, and which request it
    sends does not depend on what the broker answers: nothing is sent
    again after a response. *)
Theorem at_most_one_request
    (json_loads : str -> option json) (json_dumps : json -> str)
    (self : NakadiClient) (op : operation) (srv srv' : server) :
  sent (run_op json_loads json_dumps self op srv)
  = sent (run_op json_loads json_dumps self op srv')
  /\ (length (sent (run_op json_loads json_dumps self op srv)) <= 1)%nat.
Proof.
  destruct op; requests_of_operation; split; try reflexivity; cbn; lia.
Qed.

(** ** What a call returns and what it raises *)

Lemma decode_utf8_inr body s :
  decode_utf8 body = inr s -> utf8_valid body = true /\ s = text_of body.
Proof.
  unfold decode_utf8. destruct (utf8_valid body); [|discriminate].
  now intros [= <-].
Qed.

Lemma decode_utf8_inl body e :
  decode_utf8 body = inl e -> utf8_valid body = false /\ e = UnicodeDecodeError.
Proof.
  unfold decode_utf8. destruct (utf8_valid body); [discriminate|].
  now intros [= <-].
Qed.

(** Case analysis on the tests a method makes on a response, keeping what
    each test found. *)
Ltac case_response_eqn :=
  repeat (match goal with
          | |- context [decode_utf8 ?x] =>
            let H := fresh "Hdecode" in
            destruct (decode_utf8 x) eqn:H;
            [apply decode_utf8_inl in H as [? ->]
            |apply decode_utf8_inr in H as [? ->]]
          | |- context [status_in ?a ?b] => destruct (status_in a b) eqn:?
          | |- context [match ?jl ?a with Some _ => _ | None => _ end] =>
            destruct (jl a) eqn:?
          end; cbn [negb sent result app]);
  rewrite ?raise_NakadiException_outcome;
  cbn [negb sent result app].

(** X8: a call that has sent its request returns only when the status of
    the response is one the operation accepts, and what it returns is
    fixed by the response: [True] or the decoded JSON of a body that is
    valid UTF-8, or a new session over the response. *)
Theorem result_is_determined_by_response
    (json_loads : str -> option json) (json_dumps : json -> str)
    (self : NakadiClient) (op : operation) (srv : server) (req : Request)
    (v : value) :
  sent (run_op json_loads json_dumps self op srv) = [req] ->
  result (run_op json_loads json_dumps self op srv) = inr v ->
  status_in (status_code (srv req)) (accepted op) = true
  /\ match v with
     | VBool b => b = true /\ utf8_valid (content (srv req)) = true
     | VJson j =>
       utf8_valid (content (srv req)) = true
       /\ json_loads (text_of (content (srv req))) = Some j
     | VStream session => session = NakadiStream_init (srv req)
     end.
Proof.
  destruct op; unfold_method; forget_request; unfold_steps; case_response_eqn.
  all: try (intros; discriminate).
  all: intros Hsent; injection Hsent as <-.
  all: intros [= <-].
  all: try congruence.
  all: auto.
Qed.


(** X10: a call that has sent its request returns when the status is
    accepted, the body is valid UTF-8 and [json.loads] decodes it. *)
Theorem accepted_response_returns
    (json_loads : str -> option json) (json_dumps : json -> str)
    (self : NakadiClient) (op : operation) (srv : server) (req : Request) :
  sent (run_op json_loads json_dumps self op srv) = [req] ->
  status_in (status_code (srv req)) (accepted op) = true ->
  utf8_valid (content (srv req)) = true ->
  json_loads (text_of (content (srv req))) <> None ->
  exists v, result (run_op json_loads json_dumps self op srv) = inr v.
Proof.
  destruct op; unfold_method; forget_request; unfold_steps; case_response_eqn.
  all: try (intros; discriminate).
  all: intros Hsent; injection Hsent as <-.
  all: intros Hst Hutf Hjson.
  all: try congruence.
  all: eauto.
Qed.

(** [get_event_type] answered 200 with the body [true]. *)
Lemma result_is_determined_by_response_witness :
  status_in 200 (accepted (GetEventType "orders")) = true
  /\ utf8_valid (b_ "true") = true
  /\ loads_literal (text_of (b_ "true")) = Some (JBool true).
Proof.
  exact (result_is_determined_by_response loads_literal dumps_literal
           sample_client (GetEventType "orders")
           (answering 200 [] (b_ "true")) sample_request
           (VJson (JBool true)) eq_refl eq_refl).
Defined.


Lemma accepted_response_returns_witness :
  exists v,
    result (run_op loads_literal dumps_literal sample_client
              (GetEventType "orders") (answering 200 [] (b_ "true")))
    = inr v.
Proof.
  apply (accepted_response_returns loads_literal dumps_literal sample_client
           (GetEventType "orders") (answering 200 [] (b_ "true"))
           sample_request);
    [reflexivity | reflexivity | reflexivity | vm_compute; discriminate].
Defined.

(** ** Subscription streams *)

(** X11: a subscription stream that the broker answers with status 200
    and a body of lines, each free of line breaks, valid UTF-8 and followed
    by a newline, gives a session whose [__next__] returns the lines in
    order and then raises [StopIteration]. *)
Theorem subscription_stream_delivers_lines
    (self : NakadiClient) (subscription_id : str)
    (max_uncommitted_events batch_limit stream_limit batch_flush_timeout
     stream_timeout stream_keep_alive_limit : option Z)
    (srv : server) (lines : list bytes) :
  (forall req,
     status_code (srv req) = 200
     /\ content (srv req) = newline_terminated lines) ->
  Forall (fun l => line_ok l = true) lines ->
  exists session,
    result (get_subscription_events_stream self subscription_id
              max_uncommitted_events batch_limit stream_limit
              batch_flush_timeout stream_timeout stream_keep_alive_limit srv)
    = inr session
    /\ fst (next_batches (length lines) session)
       = map (fun l => inr (text_of l)) lines
    /\ fst (NakadiStream_next (snd (next_batches (length lines) session)))
       = inl StopIteration.
Proof.
  intros Hsrv Hall. unfold_method. forget_request. unfold_steps.
  match goal with
  | |- context [srv ?q] => destruct (Hsrv q) as [Hcode Hbody]; rewrite Hcode
  end.
  cbn [status_in existsb Z.eqb Pos.eqb orb negb sent result].
  eexists. split; [reflexivity|].
  unfold NakadiStream_init. rewrite Hbody.
  match goal with
  | |- context [srv ?q] =>
    destruct (next_batches_lines lines (srv q) None Hall) as [cb' ->]
  end.
  split; [reflexivity | apply NakadiStream_next_end].
Qed.

Lemma subscription_stream_delivers_lines_witness :
  exists session,
    result (get_subscription_events_stream sample_client "sub-1"
              None None None None None None
              (answering 200 []
                 (newline_terminated [b_ "[1]"; b_ "{}"])))
    = inr session
    /\ fst (next_batches 2 session) = [inr "[1]"; inr "{}"]
    /\ fst (NakadiStream_next (snd (next_batches 2 session)))
       = inl StopIteration.
Proof.
  apply (subscription_stream_delivers_lines sample_client "sub-1"
           None None None None None None
           (answering 200 [] (newline_terminated [b_ "[1]"; b_ "{}"]))
           [b_ "[1]"; b_ "{}"]).
  - intros req. split; reflexivity.
  - repeat constructor.
Defined.

(** X12: a subscription stream that the broker answers with status 200
    and the header X-Nakadi-StreamId, in any spelling of its letters,
    gives a session whose [get_stream_id()] returns the value of the
    header. *)
Theorem subscription_stream_id_from_header
    (self : NakadiClient) (subscription_id : str)
    (max_uncommitted_events batch_limit stream_limit batch_flush_timeout
     stream_timeout stream_keep_alive_limit : option Z)
    (srv : server) (name v : str) (others : CaseInsensitiveDict) :
  lower name = "x-nakadi-streamid" ->
  (forall req,
     status_code (srv req) = 200
     /\ headers (srv req) = cid_setitem name v others) ->
  exists session,
    result (get_subscription_events_stream self subscription_id
              max_uncommitted_events batch_limit stream_limit
              batch_flush_timeout stream_timeout stream_keep_alive_limit srv)
    = inr session
    /\ get_stream_id session = inr v.
Proof.
  intros Hname Hsrv. unfold_method. forget_request. unfold_steps.
  match goal with
  | |- context [srv ?q] => destruct (Hsrv q) as [Hcode Hhs]; rewrite Hcode
  end.
  cbn [status_in existsb Z.eqb Pos.eqb orb negb sent result].
  eexists. split; [reflexivity|].
  unfold get_stream_id, cid_getitem, NakadiStream_init.
  cbn [response]. rewrite Hhs. unfold cid_setitem. rewrite Hname.
  change (lower "X-Nakadi-StreamId") with "x-nakadi-streamid"%string.
  now rewrite lookup_insert_eq.
Qed.

(** The header in capitals. *)
Lemma subscription_stream_id_from_header_witness :
  exists session,
    result (get_subscription_events_stream sample_client "sub-1"
              None None None None None None
              (answering 200 [("X-NAKADI-STREAMID", "abc123")] []))
    = inr session
    /\ get_stream_id session = inr "abc123"%string.
Proof.
  apply (subscription_stream_id_from_header sample_client "sub-1"
           None None None None None None
           (answering 200 [("X-NAKADI-STREAMID", "abc123")] [])
           "X-NAKADI-STREAMID" "abc123" ∅).
  - reflexivity.
  - intros req. split; reflexivity.
Defined.

(** X15: when max_uncommitted_events or batch_limit is left out, opening
    a subscription stream sends one request whose page ends with the query
    string of exactly the parameters that were given, each with its
    value. *)
Theorem subscription_stream_query_exact
    (self : NakadiClient) (subscription_id : str)
    (max_uncommitted_events batch_limit stream_limit batch_flush_timeout
     stream_timeout stream_keep_alive_limit : option Z) (srv : server) :
  max_uncommitted_events = None \/ batch_limit = None ->
  map req_url
    (sent (get_subscription_events_stream self subscription_id
             max_uncommitted_events batch_limit stream_limit
             batch_flush_timeout stream_timeout stream_keep_alive_limit srv))
  = [(nakadi_url self +:+ "/subscriptions/" +:+ subscription_id
      +:+ "/events")
     +:+ query_of
           [("max_uncommitted_events", max_uncommitted_events);
            ("batch_limit", batch_limit);
            ("stream_limit", stream_limit);
            ("batch_flush_timeout", batch_flush_timeout);
            ("stream_timeout", stream_timeout);
            ("stream_keep_alive_limit", stream_keep_alive_limit)]].
Proof.
  intros Hone. unfold get_subscription_events_stream.
  generalize (nakadi_url self +:+ "/subscriptions/" +:+ subscription_id
              +:+ "/events").
  intros page. cbv zeta.
  rewrite sent_bind_request by nothing_after_response.
  cbn [map req_url]. f_equal.
  destruct max_uncommitted_events as [mue|], batch_limit as [bl|];
    [destruct Hone; discriminate | | |];
    destruct stream_limit as [sl|], batch_flush_timeout as [bft|],
             stream_timeout as [st|], stream_keep_alive_limit as [skal|];
    cbn [query_of present join_amp];
    rewrite ?append_assoc, ?append_nil_r; reflexivity.
Qed.

Lemma subscription_stream_query_exact_witness :
  map req_url
    (sent (get_subscription_events_stream sample_client "sub-1"
             (Some 10) None (Some 5) None None None (answering 200 [] [])))
  = [("https://nakadi.example.org" +:+ "/subscriptions/" +:+ "sub-1"
      +:+ "/events")
     +:+ query_of
           [("max_uncommitted_events", Some 10); ("batch_limit", None);
            ("stream_limit", Some 5); ("batch_flush_timeout", None);
            ("stream_timeout", None); ("stream_keep_alive_limit", None)]].
Proof.
  apply (subscription_stream_query_exact sample_client "sub-1"
           (Some 10) None (Some 5) None None None (answering 200 [] [])).
  now right.
Defined.

(** ** Event-type streams and cursors *)

(** X14: opening an event-type stream sends one GET with the stream flag
    set; the request carries the header X-nakadi-cursors, with the cursors
    encoded by [json.dumps], exactly when cursors are given. *)
Theorem event_type_stream_cursors_header
    (json_dumps : json -> str) (self : NakadiClient) (event_name : str)
    (batch_limit stream_limit batch_flush_timeout stream_timeout
     stream_keep_alive_limit : option (option Z))
    (cursors : option (option json)) (srv : server) :
  exists req,
    sent (get_event_type_events_stream json_dumps self event_name
            batch_limit stream_limit batch_flush_timeout stream_timeout
            stream_keep_alive_limit cursors srv)
    = [req]
    /\ req_method req = GET
    /\ req_stream req = true
    /\ req_json req = None
    /\ req_headers req !! "X-nakadi-cursors"
       = match default None cursors with
         | Some c => Some (json_dumps c)
         | None => None
         end.
Proof.
  unfold get_event_type_events_stream. cbv zeta. forget_query.
  rewrite sent_bind_request by nothing_after_response.
  eexists. split; [reflexivity|].
  cbn [req_method req_stream req_json req_headers].
  do 3 (split; [reflexivity|]).
  destruct (default None cursors) as [c|].
  - apply lookup_insert_eq.
  - unfold authorization_header.
    rewrite lookup_insert_ne by discriminate. apply lookup_empty.
Qed.

(** X13: the reset of cursors sends one PATCH to the cursors page of the
    subscription whose JSON body is the list of cursors itself; on a
    response whose body is valid UTF-8 it returns [True] exactly when the
    status is 204 and raises [NakadiException] with the status as its code
    otherwise. *)
Theorem reset_subscription_cursors_exchange
    (self : NakadiClient) (subscription_id : str) (cursors : json)
    (srv : server) :
  let out := reset_subscription_cursors self subscription_id cursors srv in
  exists req,
    sent out = [req]
    /\ req_method req = PATCH
    /\ req_url req
       = nakadi_url self +:+ "/subscriptions/" +:+ subscription_id
         +:+ "/cursors"
    /\ req_json req = Some cursors
    /\ (utf8_valid (content (srv req)) = true ->
        (result out = inr true <-> status_code (srv req) = 204)
        /\ (status_code (srv req) <> 204 ->
            exists msg,
              result out
              = inl (NakadiException (PInt (status_code (srv req)))
                       (PStr msg)))).
Proof.
  cbv zeta. unfold reset_subscription_cursors. cbv zeta.
  eexists. split; [apply sent_bind_request; nothing_after_response|].
  cbn [req_method req_url req_json].
  do 3 (split; [reflexivity|]).
  intros Hutf. cbv [bind requests_request lift]. cbn [sent result].
  rewrite (decode_utf8_valid _ Hutf). cbn [sent result].
  unfold status_in. cbn [existsb]. rewrite orb_false_r.
  match goal with
  | |- context [Z.eqb ?c 204] => destruct (Z.eqb_spec c 204) as [Heq|Hne]
  end; cbn [negb]; rewrite ?raise_NakadiException_outcome;
    cbn [sent result].
  - split; [tauto | contradiction].
  - split; [split; [discriminate | contradiction]|].
    intros _. eexists. reflexivity.
Qed.

(** A reset answered with 204. *)
Lemma reset_subscription_cursors_witness :
  result (reset_subscription_cursors sample_client "sub-1" (JList [])
            (answering 204 [] []))
  = inr true.
Proof.
  destruct (reset_subscription_cursors_exchange sample_client "sub-1"
              (JList []) (answering 204 [] []))
    as (req & _ & _ & _ & _ & Hresult).
  apply Hresult; reflexivity.
Defined.
